(** * LLMs_Microservices: the validation-and-relay contract

    A shallow embedding of the two FastAPI services of the repository,

      - [src/llm_service/main.py]  (service A, the mock LLM processor), and
      - [src/test_service/main.py] (service B, the relay / test harness),

    together with the properties their specification states about them.

    Python values are modelled as follows.
      - A [str] is the list of its Unicode code points, so that [len],
        slicing and [+] are [length], [take] and [++].
      - Code that may raise returns [result A = Exception + A]; a
        [try ... except] block is a match on that sum.
      - A [dict] is a [gmap] keyed by [str].
      - What a handler reads from its environment (the clock, the answer of
        the upstream server) is an explicit argument of the handler. *)

From Stdlib Require Import ZArith NArith QArith List Ascii String DecimalString.
From Stdlib Require DecimalPos DecimalZ.
From stdpp Require Import base option list gmap.

Local Open Scope Z_scope.

(** ** Python built-ins used by the services *)

Module Py.

(** A Python [str]: a sequence of code points. *)
Abbreviation str := (list N).

(** An ASCII literal of the source, as a [str]. *)
Definition lit (s : string) : str :=
  List.map N_of_ascii (list_ascii_of_string s).

(** The Latin-1 letters that occur in the messages of the services. *)
Definition a_acute : N := 225%N.   (* U+00E1 *)
Definition a_tilde : N := 227%N.   (* U+00E3 *)
Definition c_cedilla : N := 231%N. (* U+00E7 *)
Definition e_acute : N := 233%N.   (* U+00E9 *)
Definition i_acute : N := 237%N.   (* U+00ED *)

(** [a == b] on strings. *)
Fixpoint str_eqb (a b : str) : bool :=
  match a, b with
  | [], [] => true
  | x :: a', y :: b' => N.eqb x y && str_eqb a' b'
  | _, _ => false
  end.

(** [x in l] for a list of strings [l]. *)
Fixpoint list_in (x : str) (l : list str) : bool :=
  match l with
  | [] => false
  | y :: l' => str_eqb x y || list_in x l'
  end.

(** [s.startswith(p)]. *)
Fixpoint startswith (p s : str) : bool :=
  match p, s with
  | [], _ => true
  | x :: p', y :: s' => N.eqb x y && startswith p' s'
  | _ :: _, [] => false
  end.

(** [needle in hay] for strings: [needle] occurs at some offset of [hay]. *)
Fixpoint str_in (needle hay : str) : bool :=
  startswith needle hay ||
  match hay with
  | [] => false
  | _ :: hay' => str_in needle hay'
  end.

(** [any(f(x) for x in l)]. *)
Definition any {A} (f : A -> bool) (l : list A) : bool := existsb f l.

(** [c.isspace()] for one code point: the characters that [str.strip()]
    removes when called without argument. *)
Definition isspace (c : N) : bool :=
  ((9 <=? c) && (c <=? 13) ||
   (28 <=? c) && (c <=? 32) ||
   (c =? 133) || (c =? 160) || (c =? 5760) ||
   (8192 <=? c) && (c <=? 8202) ||
   (c =? 8232) || (c =? 8233) || (c =? 8239) || (c =? 8287) ||
   (c =? 12288))%N.

Fixpoint lstrip (s : str) : str :=
  match s with
  | [] => []
  | c :: s' => if isspace c then lstrip s' else s
  end.

Definition rstrip (s : str) : str := rev (lstrip (rev s)).

(** [s.strip()]. *)
Definition strip (s : str) : str := rstrip (lstrip s).

(** Truth value of a string or of a list: non-empty. *)
Definition truthy {A} (l : list A) : bool :=
  match l with [] => false | _ :: _ => true end.

(** [str(n)] for an [int]: decimal digits with a leading minus sign. *)
Definition str_of_int (n : Z) : str :=
  lit (NilZero.string_of_int (Z.to_int n)).

(** [len(l)] as an [int]. *)
Definition len {A} (l : list A) : Z := Z.of_nat (length l).

(** [repr(s)] for a string without quotes, backslashes or control
    characters, which is all the services ever print this way. *)
Definition str_repr (s : str) : str := lit "'" ++ s ++ lit "'".

(** [", ".join(l)]. *)
Fixpoint join_comma (l : list str) : str :=
  match l with
  | [] => []
  | [x] => x
  | x :: l' => x ++ lit ", " ++ join_comma l'
  end.

(** [str(l)] for a list of such strings, as an f-string renders it. *)
Definition list_repr (l : list str) : str :=
  lit "[" ++ join_comma (List.map str_repr l) ++ lit "]".

(** ASCII-only lowercasing: what [str.lower()] computes on a string whose
    cased characters are all ASCII.  The services are verified for an
    arbitrary [lower]; this instance is the one the examples run. *)
Definition ascii_lower (s : str) : str :=
  List.map (fun c => if ((65 <=? c) && (c <=? 90))%N then (c + 32)%N else c) s.

(** The characters that a Rocq string literal cannot hold directly. *)
Definition nl : str := [10%N].  (* line feed *)
Definition dq : str := [34%N].  (* double quote *)

(** [enumerate(l)], counting from [i]. *)
Fixpoint enumerate_from {A} (i : Z) (l : list A) : list (Z * A) :=
  match l with
  | [] => []
  | x :: l' => (i, x) :: enumerate_from (i + 1) l'
  end.

Definition enumerate {A} (l : list A) : list (Z * A) := enumerate_from 0 l.

(** *** Exceptions *)

(** The exception classes the services distinguish.  [RequestException]
    and [OtherException] carry [str(e)]. *)
Inductive Exception : Type :=
  | HTTPException (status_code : Z) (detail : str)
      (* fastapi.HTTPException *)
  | RequestException (str_e : str)
      (* requests.exceptions.RequestException and its subclasses *)
  | OtherException (str_e : str).
      (* any other subclass of Exception *)

(** A computation that returns an [A] or raises. *)
Definition result (A : Type) : Type := (Exception + A)%type.

Definition raise {A} (e : Exception) : result A := inl e.

#[global] Instance result_ret : MRet result := fun A a => inr a.

(** Sequencing: the first exception raised ends the computation. *)
#[global] Instance result_bind : MBind result := fun A B k c =>
  match c with
  | inl e => inl e
  | inr a => k a
  end.

(** [c in chars] for one code point. *)
Definition char_in (c : N) (chars : str) : bool := existsb (N.eqb c) chars.

Fixpoint lstrip_chars (chars s : str) : str :=
  match s with
  | [] => []
  | c :: s' => if char_in c chars then lstrip_chars chars s' else s
  end.

(** [s.rstrip(chars)]: the trailing characters that occur in [chars] are
    removed. *)
Definition rstrip_chars (chars s : str) : str :=
  rev (lstrip_chars chars (rev s)).

(** *** Specifications of the built-ins *)

(** [m] occurs in [s] as a contiguous substring. *)
Definition substring (m s : str) : Prop :=
  exists pre post, s = pre ++ m ++ post.

(** Every character of [s] is white space (this includes the empty string). *)
Definition blank (s : str) : Prop :=
  Forall (fun c => isspace c = true) s.

End Py.

Import Py.

(** ** Service A: [src/llm_service/main.py] *)

Module LLMService.

Record LLMRequest : Type := {
  artifacts : list str;
  platform : str;
  model : str;
  prompt : str
}.

(** A value of a [Dict[str, Any]] as the service fills it. *)
Inductive Any : Type :=
  | AStr (s : str)
  | AInt (n : Z).

Record LLMResponse : Type := {
  request_id : str;
  status : str;
  response_text : str;
  metadata : gmap str Any;
  timestamp : str;
  processing_time_ms : Q
}.

(** What one call of [/process] reads from the clock. *)
Record Clock : Type := {
  start_ms : Z;    (* int(start_time.timestamp() * 1000) *)
  end_iso : str;   (* end_time.isoformat() *)
  elapsed_ms : Q   (* (end_time - start_time).total_seconds() * 1000 *)
}.

(** [LLMProcessor.__init__] *)
Definition supported_platforms : list str :=
  [lit "huggingface"; lit "openai"; lit "local"; lit "ollama"].
Definition supported_models : list str :=
  [lit "llama"; lit "deepseek"; lit "gpt"; lit "mistral"; lit "phi"].

Definition platform_detail (request : LLMRequest) : str :=
  lit "Plataforma '" ++ platform request ++ lit "' n" ++ [a_tilde] ++
  lit "o suportada. Plataformas suportadas: " ++ list_repr supported_platforms.

Definition model_detail (request : LLMRequest) : str :=
  lit "Modelo '" ++ model request ++ lit "' n" ++ [a_tilde] ++
  lit "o suportado. Modelos suportados: " ++ list_repr supported_models.

Definition prompt_detail : str :=
  lit "Prompt n" ++ [a_tilde] ++ lit "o pode estar vazio".

(** [LLMProcessor.process_artifacts] *)
Definition process_artifacts (artifacts : list str) : str :=
  if negb (truthy artifacts) then lit "Nenhum artefato fornecido"
  else
    let artifact_summary :=
      lit "Processando " ++ str_of_int (len artifacts) ++ lit " artefato(s): " in
    let artifact_summary :=
      fold_left
        (fun artifact_summary '(i, artifact) =>
           artifact_summary ++ nl ++ lit "- Artefato " ++ str_of_int (i + 1) ++
           lit ": " ++ take 100 artifact ++ lit "...")
        (enumerate (take 3 artifacts)) artifact_summary in
    if 3 <? len artifacts then
      artifact_summary ++ nl ++ lit "- ... e mais " ++
      str_of_int (len artifacts - 3) ++ lit " artefato(s)"
    else artifact_summary.

(** [LLMProcessor.generate_response] *)
Definition generate_response (request : LLMRequest) : str :=
  let artifact_context := process_artifacts (artifacts request) in
  strip (
    nl ++ lit "Resposta gerada pela LLM " ++ model request ++
    lit " na plataforma " ++ platform request ++ lit ":" ++ nl ++
    nl ++
    lit "Contexto dos Artefatos:" ++ nl ++
    artifact_context ++ nl ++
    nl ++
    lit "Prompt Original: " ++ dq ++ prompt request ++ dq ++ nl ++
    nl ++
    lit "Resposta Simulada:" ++ nl ++
    lit "Com base nos artefatos fornecidos e no prompt " ++ dq ++
    prompt request ++ dq ++ lit ", " ++ nl ++
    lit "a an" ++ [a_acute] ++
    lit "lise indica que o sistema deve considerar os seguintes aspectos:" ++ nl ++
    nl ++
    lit "1. An" ++ [a_acute] ++ lit "lise dos artefatos fornecidos" ++ nl ++
    lit "2. Aplica" ++ [c_cedilla; a_tilde] ++ lit "o do modelo " ++
    model request ++ lit " para processamento" ++ nl ++
    lit "3. Gera" ++ [c_cedilla; a_tilde] ++
    lit "o de resposta contextualizada" ++ nl ++
    nl ++
    lit "Esta " ++ [e_acute] ++ lit " uma resposta simulada. Em produ" ++
    [c_cedilla; a_tilde] ++ lit "o, seria gerada pelo modelo real " ++
    model request ++ lit "." ++ nl ++
    lit "        ").

Section WithLower.

(** [str.lower], the Unicode lowercasing of the Python runtime. *)
Variable lower : str -> str.

(** The first two checks of [validate_request], as the specification
    words them: the platform is, ignoring case, one of the supported
    platforms; the model contains, ignoring case, a supported model name. *)
Definition platform_supported (request : LLMRequest) : Prop :=
  lower (platform request) ∈ supported_platforms.

Definition model_supported (request : LLMRequest) : Prop :=
  ∃ m, m ∈ supported_models ∧ substring m (lower (model request)).

(** [LLMProcessor.validate_request] *)
Definition validate_request (request : LLMRequest) : result bool :=
  if negb (list_in (lower (platform request)) supported_platforms) then
    raise (HTTPException 400 (platform_detail request))
  else
    let lowered := lower (model request) in
    if negb (any (fun model => str_in model lowered) supported_models) then
      raise (HTTPException 400 (model_detail request))
    else if negb (truthy (strip (prompt request))) then
      raise (HTTPException 400 prompt_detail)
    else mret true.

(** The body of the [try] block of [process_llm_request]. *)
Definition try_body (clk : Clock) (request_id : str) (request : LLMRequest)
  : result LLMResponse :=
  (validate_request request ;;
   let response_text := generate_response request in
   let metadata : gmap str Any :=
     <[lit "platform_used" := AStr (platform request)]>
     (<[lit "model_used" := AStr (model request)]>
     (<[lit "artifacts_count" := AInt (len (artifacts request))]>
     (<[lit "prompt_length" := AInt (len (prompt request))]>
     (<[lit "response_length" := AInt (len response_text)]> ∅)))) in
   mret {| request_id := request_id;
          status := lit "success";
          response_text := response_text;
          metadata := metadata;
          timestamp := end_iso clk;
          processing_time_ms := elapsed_ms clk |}).

(** The two [except] clauses of [process_llm_request]: an [HTTPException]
    is raised again as it is, any other exception becomes a 500. *)
Definition except_clauses {A} (outcome : result A) : result A :=
  match outcome with
  | inr v => inr v
  | inl (HTTPException status_code detail) =>
      raise (HTTPException status_code detail)
  | inl (RequestException str_e) | inl (OtherException str_e) =>
      raise (HTTPException 500 (lit "Erro interno do servidor: " ++ str_e))
  end.

(** [POST /process] *)
Definition process_llm_request (clk : Clock) (request : LLMRequest)
  : result LLMResponse :=
  let request_id := lit "req_" ++ str_of_int (start_ms clk) in
  except_clauses (try_body clk request_id request).

End WithLower.

(** Requests that the examples below run. *)
Definition scenario_1 : LLMRequest :=
  {| artifacts := []; platform := lit "huggingface";
     model := lit "llama-7b"; prompt := lit "Summarize" |}.

Definition scenario_2 : LLMRequest :=
  {| artifacts := []; platform := lit "aws";
     model := lit "llama-7b"; prompt := lit "Summarize" |}.

Definition mixed_case_request : LLMRequest :=
  {| artifacts := [lit "requirements.md"]; platform := lit "OpenAI";
     model := lit "GPT-4"; prompt := lit "Summarize" |}.

Definition tab_prompt_request : LLMRequest :=
  {| artifacts := []; platform := lit "openai";
     model := lit "gpt-4"; prompt := [9%N] |}.

Definition unknown_model_request : LLMRequest :=
  {| artifacts := []; platform := lit "openai";
     model := lit "claude"; prompt := lit "Summarize" |}.

Definition noon : Clock :=
  {| start_ms := 1700000000123; end_iso := lit "2023-11-14T22:13:20.125000";
     elapsed_ms := 2 |}.

End LLMService.

(** ** Service B: [src/test_service/main.py] *)

Module TestService.

Record TestRequest : Type := {
  artifacts : list str;
  platform : str;
  model : str;
  prompt : str
}.

(** A parsed JSON document, as [response.json()] returns it. *)
#[warnings="-register-all"]
Inductive JSON : Type :=
  | JNull
  | JBool (b : bool)
  | JInt (n : Z)
  | JFloat (q : Q)
  | JString (s : str)
  | JArray (l : list JSON)
  | JObject (m : gmap str JSON).

(** A [requests.Response]: [json] is what calling [response.json()] does,
    which raises when the body is not a JSON document. *)
Record Response : Type := {
  status_code : Z;
  text : str;
  json : result JSON
}.

(** The upstream server as the client sees it: what each of the four HTTP
    calls does, either raising or returning a response. *)
Record Upstream : Type := {
  get_health : result Response;                   (* GET  /health    *)
  get_models : result Response;                   (* GET  /models    *)
  get_platforms : result Response;                (* GET  /platforms *)
  post_process : TestRequest -> result Response   (* POST /process   *)
}.

Record TestResponse : Type := {
  test_id : str;
  llm_request : TestRequest;
  llm_response : gmap str JSON;
  status : str;
  timestamp : str;
  test_duration_ms : Q
}.

Record HealthResponse : Type := {
  health_status : str;          (* status *)
  health_timestamp : str;       (* timestamp *)
  llm_service_status : str
}.

(** What one call of [/test] reads from the clock. *)
Record Clock : Type := {
  start_ms : Z;    (* int(start_time.timestamp() * 1000) *)
  end_iso : str;   (* end_time.isoformat() *)
  elapsed_ms : Q   (* (end_time - start_time).total_seconds() * 1000 *)
}.

(** [type(j).__name__] *)
Definition type_name (j : JSON) : str :=
  match j with
  | JNull => lit "NoneType"
  | JBool _ => lit "bool"
  | JInt _ => lit "int"
  | JFloat _ => lit "float"
  | JString _ => lit "str"
  | JArray _ => lit "list"
  | JObject _ => lit "dict"
  end.

(** [j.get(key, default)]: only a [dict] has the method. *)
Definition get (j : JSON) (key : str) (default : JSON) : result JSON :=
  match j with
  | JObject m =>
      mret (match m !! key with Some v => v | None => default end)
  | _ =>
      raise (OtherException
               (lit "'" ++ type_name j ++ lit "' object has no attribute 'get'"))
  end.

(** [try: body except Exception: return fallback] *)
Definition except_Exception {A} (body : result A) (fallback : A) : result A :=
  match body with
  | inr v => inr v
  | inl _ => mret fallback
  end.

(** [LLMClient.check_health] *)
Definition check_health (up : Upstream) : result bool :=
  except_Exception
    (response ← get_health up;
     mret (status_code response =? 200))
    false.

(** [LLMClient.get_supported_models] *)
Definition get_supported_models (up : Upstream) : result JSON :=
  except_Exception
    (response ← get_models up;
     if status_code response =? 200 then
       j ← json response;
       get j (lit "supported_models") (JArray [])
     else mret (JArray []))
    (JArray []).

(** [LLMClient.get_supported_platforms] *)
Definition get_supported_platforms (up : Upstream) : result JSON :=
  except_Exception
    (response ← get_platforms up;
     if status_code response =? 200 then
       j ← json response;
       get j (lit "supported_platforms") (JArray [])
     else mret (JArray []))
    (JArray []).

(** The details of the two errors of [process_request]. *)
Definition upstream_error_detail (response : Response) : str :=
  lit "Erro do servi" ++ [c_cedilla] ++ lit "o LLM: " ++ text response.

Definition unavailable_detail (str_e : str) : str :=
  lit "Servi" ++ [c_cedilla] ++ lit "o LLM indispon" ++ [i_acute] ++
  lit "vel: " ++ str_e.

(** [LLMClient.process_request] *)
Definition process_request (up : Upstream) (request : TestRequest)
  : result JSON :=
  let body :=
    let payload :=
      {| artifacts := artifacts request;
         platform := platform request;
         model := model request;
         prompt := prompt request |} in
    response ← post_process up payload;
    if status_code response =? 200 then json response
    else
      raise (HTTPException (status_code response)
               (upstream_error_detail response)) in
  match body with
  | inl (RequestException str_e) =>
      raise (HTTPException 503 (unavailable_detail str_e))
  | outcome => outcome
  end.

(** [GET /health] *)
Definition health_check (now_iso : str) (up : Upstream)
  : result HealthResponse :=
  llm_healthy ← check_health up;
  mret {| health_status :=
            if llm_healthy : bool then lit "healthy" else lit "degraded";
          health_timestamp := now_iso;
          llm_service_status :=
            if llm_healthy then lit "healthy" else lit "unhealthy" |}.

Section WithPydantic.

(** How pydantic validates the [Dict[str, Any]] field [llm_response] of a
    [TestResponse]: it returns the dictionary or raises its
    [ValidationError]. *)
Variable dict_field : JSON -> result (gmap str JSON).

(** The body of the [try] block of [test_llm_service]. *)
Definition try_body (clk : Clock) (up : Upstream) (test_id : str)
    (request : TestRequest) : result TestResponse :=
  llm_response ← process_request up request;
  llm_response ← dict_field llm_response;
  mret {| test_id := test_id;
          llm_request := request;
          llm_response := llm_response;
          status := lit "success";
          timestamp := end_iso clk;
          test_duration_ms := elapsed_ms clk |}.

(** The two [except] clauses of [test_llm_service]. *)
Definition except_clauses {A} (outcome : result A) : result A :=
  match outcome with
  | inr v => inr v
  | inl (HTTPException status_code detail) =>
      raise (HTTPException status_code detail)
  | inl (RequestException str_e) | inl (OtherException str_e) =>
      raise (HTTPException 500 (lit "Erro interno do servidor: " ++ str_e))
  end.

(** [POST /test] *)
Definition test_llm_service (clk : Clock) (up : Upstream)
    (request : TestRequest) : result TestResponse :=
  let test_id := lit "test_" ++ str_of_int (start_ms clk) in
  except_clauses (try_body clk up test_id request).

End WithPydantic.

(** pydantic on a value that already is a dictionary: nothing to coerce. *)
Definition dict_field_strict (j : JSON) : result (gmap str JSON) :=
  match j with
  | JObject m => mret m
  | _ => raise (OtherException (lit "Input should be a valid dictionary"))
  end.

(** [LLMClient.__init__]: the client keeps the base URL without its
    trailing slashes. *)
Record LLMClient : Type := { base_url : str }.

Definition LLMClient_init (base_url : str) : LLMClient :=
  {| base_url := rstrip_chars (lit "/") base_url |}.

(** The URLs the four methods request. *)
Definition health_url (self : LLMClient) : str := base_url self ++ lit "/health".
Definition models_url (self : LLMClient) : str := base_url self ++ lit "/models".
Definition platforms_url (self : LLMClient) : str :=
  base_url self ++ lit "/platforms".
Definition process_url (self : LLMClient) : str :=
  base_url self ++ lit "/process".

(** [len(j)]: strings, lists and dictionaries have a length, the other
    values raise [TypeError]. *)
Definition py_len (j : JSON) : result Z :=
  match j with
  | JString s => mret (len s)
  | JArray l => mret (len l)
  | JObject m => mret (Z.of_nat (size m))
  | _ =>
      raise (OtherException
               (lit "object of type '" ++ type_name j ++ lit "' has no len()"))
  end.

(** [GET /models] of service B (the function [get_supported_models] at
    module level). *)
Definition get_supported_models_route (up : Upstream)
  : result (gmap str JSON) :=
  models ← get_supported_models up;
  count ← py_len models;
  mret (<[lit "supported_models" := models]>
        (<[lit "count" := JInt count]>
        (<[lit "source" := JString (lit "llm_service")]> ∅))).

(** [GET /platforms] of service B (the function [get_supported_platforms]
    at module level). *)
Definition get_supported_platforms_route (up : Upstream)
  : result (gmap str JSON) :=
  platforms ← get_supported_platforms up;
  count ← py_len platforms;
  mret (<[lit "supported_platforms" := platforms]>
        (<[lit "count" := JInt count]>
        (<[lit "source" := JString (lit "llm_service")]> ∅))).

(** Requests and upstream servers that the examples below run. *)
Definition sample_request : TestRequest :=
  {| artifacts := [lit "requirements.md"]; platform := lit "openai";
     model := lit "gpt-4"; prompt := lit "Summarize" |}.

Definition connection_refused : Exception :=
  RequestException (lit "Connection refused").

(** No server listens at the configured address. *)
Definition unreachable_upstream : Upstream :=
  {| get_health := raise connection_refused;
     get_models := raise connection_refused;
     get_platforms := raise connection_refused;
     post_process := fun _ => raise connection_refused |}.

(** A server that answers every call with status [code] and the JSON
    document [j], whose text is [body]. *)
Definition answering (code : Z) (body : str) (j : JSON) : Upstream :=
  let response := {| status_code := code; text := body; json := mret j |} in
  {| get_health := mret response;
     get_models := mret response;
     get_platforms := mret response;
     post_process := fun _ => mret response |}.

(** A server that answers 200 with a page that is not JSON; decoding it
    raises [e]. *)
Definition answering_html (e : Exception) : Upstream :=
  let response :=
    {| status_code := 200; text := lit "<html></html>"; json := raise e |} in
  {| get_health := mret response;
     get_models := mret response;
     get_platforms := mret response;
     post_process := fun _ => mret response |}.

(** [requests] of version 2.27 and later raises its own [JSONDecodeError],
    a [RequestException], for a body that is not JSON. *)
Definition html_upstream : Upstream :=
  answering_html
    (RequestException (lit "Expecting value: line 1 column 1 (char 0)")).

Definition null_lists : JSON :=
  JObject (<[lit "supported_models" := JNull]>
           (<[lit "supported_platforms" := JNull]> ∅)).

End TestService.

(** ** Service A: the discovery routes of [src/llm_service/main.py] *)

Module LLMServiceRoutes.
Import LLMService TestService.

(** [GET /models] of service A. *)
Definition get_supported_models : gmap str JSON :=
  <[lit "supported_models" := JArray (JString <$> supported_models)]>
  (<[lit "count" := JInt (len supported_models)]> ∅).

(** [GET /platforms] of service A. *)
Definition get_supported_platforms : gmap str JSON :=
  <[lit "supported_platforms" := JArray (JString <$> supported_platforms)]>
  (<[lit "count" := JInt (len supported_platforms)]> ∅).

End LLMServiceRoutes.

(** * Properties *)

(** ** The built-ins meet their specifications *)

Module PyFacts.

Lemma str_eqb_eq (a b : str) : str_eqb a b = true ↔ a = b.
Proof.
  revert b. induction a as [|x a IH]; intros [|y b]; simpl; try done.
  rewrite andb_true_iff, N.eqb_eq, IH.
  split; [by intros [-> ->] | by intros [= -> ->]].
Qed.

Lemma list_in_spec (x : str) (l : list str) : list_in x l = true ↔ x ∈ l.
Proof.
  induction l as [|y l IH]; simpl.
  - split; [done | by intros ?%elem_of_nil].
  - rewrite orb_true_iff, str_eqb_eq, IH, elem_of_cons. done.
Qed.

Lemma list_in_false (x : str) (l : list str) : list_in x l = false ↔ x ∉ l.
Proof.
  rewrite <- list_in_spec. destruct (list_in x l); naive_solver.
Qed.

Lemma startswith_spec (p s : str) :
  startswith p s = true ↔ ∃ post, s = p ++ post.
Proof.
  revert s. induction p as [|x p IH]; intros s; simpl.
  - split; [by exists s | done].
  - destruct s as [|y s].
    + split; [done | by intros [? ?]].
    + rewrite andb_true_iff, N.eqb_eq, IH. split.
      * intros [-> [post ->]]. by exists post.
      * intros [post [= -> ->]]. eauto.
Qed.

Lemma str_in_spec (needle hay : str) :
  str_in needle hay = true ↔ substring needle hay.
Proof.
  unfold substring. induction hay as [|c hay IH]; simpl.
  - rewrite orb_false_r, startswith_spec. split.
    + intros [post E]. by exists [], post.
    + intros (pre & post & E). symmetry in E.
      apply app_eq_nil in E as [-> E]. apply app_eq_nil in E as [-> ->].
      by exists [].
  - rewrite orb_true_iff, startswith_spec, IH. split.
    + intros [[post E] | (pre & post & E)].
      * by exists [], post.
      * exists (c :: pre), post. by rewrite E.
    + intros ([|c' pre] & post & E); simpl in E.
      * left. by exists post.
      * right. injection E as -> E. by exists pre, post.
Qed.

Lemma str_in_false (needle hay : str) :
  str_in needle hay = false ↔ ¬ substring needle hay.
Proof.
  rewrite <- str_in_spec. destruct (str_in needle hay); naive_solver.
Qed.

Lemma any_spec {A} (f : A → bool) (l : list A) :
  any f l = true ↔ ∃ x, x ∈ l ∧ f x = true.
Proof.
  unfold any. rewrite existsb_exists.
  split; intros (x & Hx & Hf); exists x; split; try done;
    by apply list_elem_of_In.
Qed.

Lemma any_false {A} (f : A → bool) (l : list A) :
  any f l = false ↔ ∀ x, x ∈ l → f x = false.
Proof.
  split.
  - intros H x Hx. destruct (f x) eqn:Hf; [|done].
    assert (any f l = true) by (apply any_spec; eauto). congruence.
  - intros H. destruct (any f l) eqn:Hany; [|done].
    apply any_spec in Hany as (x & Hx & Hf). rewrite (H x Hx) in Hf. done.
Qed.

(** *** [strip] *)

Lemma lstrip_nil (s : str) : lstrip s = [] ↔ blank s.
Proof.
  unfold blank. induction s as [|c s IH]; simpl.
  - split; [constructor | done].
  - rewrite Forall_cons. destruct (isspace c).
    + rewrite IH. split; [by split | by intros [_ ?]].
    + split; [done | by intros [? _]].
Qed.

Lemma lstrip_head (s : str) :
  lstrip s = [] ∨ ∃ c t, lstrip s = c :: t ∧ isspace c = false.
Proof.
  induction s as [|c s IH]; simpl; [by left|].
  destruct (isspace c) eqn:Hc; [done|]. right. eauto.
Qed.

Lemma blank_rev (s : str) : blank (rev s) → blank s.
Proof.
  unfold blank. intros H. rewrite <- (rev_involutive s). by apply Forall_rev.
Qed.

Lemma strip_nil (s : str) : strip s = [] ↔ blank s.
Proof.
  unfold strip, rstrip. split.
  - intros H. apply (f_equal (@rev N)) in H. rewrite rev_involutive in H.
    simpl in H. apply lstrip_nil, blank_rev in H.
    destruct (lstrip_head s) as [E | (c & t & E & Hc)].
    + by apply lstrip_nil.
    + rewrite E in H. apply Forall_cons in H as [H _]. congruence.
  - intros H. apply lstrip_nil in H. by rewrite H.
Qed.

Lemma truthy_strip (s : str) : truthy (strip s) = false ↔ blank s.
Proof.
  rewrite <- strip_nil. destruct (strip s); simpl; naive_solver.
Qed.

(** *** Substrings *)

Lemma substring_here (pre m post : str) : substring m (pre ++ m ++ post).
Proof. by exists pre, post. Qed.

Lemma substring_refl (m : str) : substring m m.
Proof. exists [], []. by rewrite app_nil_r. Qed.

Lemma substring_app_l (m s t : str) : substring m s → substring m (t ++ s).
Proof.
  intros (pre & post & ->). exists (t ++ pre), post. by rewrite <- app_assoc.
Qed.

Lemma substring_app_r (m s t : str) : substring m s → substring m (s ++ t).
Proof.
  intros (pre & post & ->). exists pre, (post ++ t).
  by rewrite <- !app_assoc.
Qed.

Lemma substring_trans (a b c : str) :
  substring a b → substring b c → substring a c.
Proof.
  intros (p1 & q1 & ->) (p2 & q2 & ->). exists (p2 ++ p1), (q1 ++ q2).
  by rewrite <- !app_assoc.
Qed.

Lemma join_comma_contains (x : str) (l : list str) :
  x ∈ l → substring x (join_comma l).
Proof.
  induction l as [|y l IH]; [by intros ?%elem_of_nil|].
  intros [-> | Hx]%elem_of_cons.
  - destruct l; simpl; [apply substring_refl|].
    apply (substring_here []).
  - destruct l as [|z l]; [by apply elem_of_nil in Hx|].
    change (join_comma (y :: z :: l))
      with (y ++ lit ", " ++ join_comma (z :: l)).
    by apply substring_app_l, substring_app_l, IH.
Qed.

Lemma list_repr_contains (x : str) (l : list str) :
  x ∈ l → substring x (list_repr l).
Proof.
  intros Hx. apply substring_trans with (str_repr x).
  - apply substring_here.
  - unfold list_repr. apply substring_app_l, substring_app_r.
    apply join_comma_contains, list_elem_of_In, in_map, list_elem_of_In, Hx.
Qed.

(** *** Loops that append *)

Lemma fold_left_append {A} (f : str → A → str) (g : A → str)
    (l : list A) (acc : str) :
  (∀ acc x, f acc x = acc ++ g x) →
  fold_left f l acc = acc ++ concat (g <$> l).
Proof.
  intros Hf. revert acc. induction l as [|x l IH]; intros acc; simpl.
  - by rewrite app_nil_r.
  - by rewrite IH, Hf, <- app_assoc.
Qed.

Lemma enumerate_from_lookup {A} (k : Z) (l : list A) (i : nat) :
  enumerate_from k l !! i = (fun x => (k + Z.of_nat i, x)) <$> l !! i.
Proof.
  revert k i. induction l as [|x l IH]; intros k [|i]; simpl; try done.
  - by rewrite Z.add_0_r.
  - rewrite IH. destruct (l !! i); simpl; [|done]. do 2 f_equal. lia.
Qed.

Lemma enumerate_from_length {A} (k : Z) (l : list A) :
  length (enumerate_from k l) = length l.
Proof.
  revert k. induction l as [|x l IH]; intros k; simpl; [done|].
  by rewrite IH.
Qed.

End PyFacts.

(** ** Service A: validation *)

Module LLMServiceSpec.
Import PyFacts LLMService.

Section Validator.

Variable lower : str → str.

Lemma model_check_true (request : LLMRequest) :
  any (fun m => str_in m (lower (model request))) supported_models = true
  ↔ model_supported lower request.
Proof.
  rewrite any_spec. unfold model_supported.
  split; intros (m & Hm & H); exists m; split; try done; by apply str_in_spec.
Qed.

Lemma model_check_false (request : LLMRequest) :
  any (fun m => str_in m (lower (model request))) supported_models = false
  ↔ ¬ model_supported lower request.
Proof.
  rewrite <- model_check_true.
  destruct (any _ supported_models); split; done.
Qed.

(** [validate_request] with each check replaced by its specification. *)
Lemma validate_request_cases (request : LLMRequest) :
  (¬ platform_supported lower request ∧
   validate_request lower request
   = raise (HTTPException 400 (platform_detail request)))
  ∨ (platform_supported lower request ∧ ¬ model_supported lower request ∧
     validate_request lower request
     = raise (HTTPException 400 (model_detail request)))
  ∨ (platform_supported lower request ∧ model_supported lower request ∧
     blank (prompt request) ∧
     validate_request lower request = raise (HTTPException 400 prompt_detail))
  ∨ (platform_supported lower request ∧ model_supported lower request ∧
     ¬ blank (prompt request) ∧
     validate_request lower request = mret true).
Proof.
  unfold validate_request, platform_supported. cbv zeta.
  destruct (list_in _ supported_platforms) eqn:Hp; cbn [negb].
  2: { left. split; [by apply list_in_false | done]. }
  apply list_in_spec in Hp. right.
  destruct (any _ supported_models) eqn:Hm; cbn [negb].
  2: { left. by apply model_check_false in Hm. }
  apply model_check_true in Hm. right.
  destruct (truthy (strip (prompt request))) eqn:Hs; cbn [negb].
  - right. repeat split; try done.
    intros Hb%truthy_strip. congruence.
  - left. by apply truthy_strip in Hs.
Qed.

Lemma model_detail_ne_prompt_detail (request : LLMRequest) :
  model_detail request ≠ prompt_detail.
Proof. discriminate. Qed.

End Validator.

(** C1.  A request whose lowercased platform is not one of the four
    supported platforms is rejected with status 400, whatever its model and
    prompt are; the detail of the error contains the platform as submitted
    and each of the four supported platforms. *)
Theorem validate_rejects_unsupported_platform
    (lower : str → str) (request : LLMRequest) :
  lower (platform request) ∉ supported_platforms →
  ∃ detail,
    validate_request lower request = raise (HTTPException 400 detail)
    ∧ substring (platform request) detail
    ∧ ∀ p, p ∈ supported_platforms → substring p detail.
Proof.
  intros Hp. exists (platform_detail request). split; [|split].
  - destruct (validate_request_cases lower request)
      as [[_ E] | [[H _] | [[H _] | [H _]]]]; done.
  - apply substring_here.
  - intros p Hin. unfold platform_detail.
    do 5 apply substring_app_l. by apply list_repr_contains.
Qed.

Lemma validate_rejects_unsupported_platform_witness :
  ∃ detail,
    validate_request ascii_lower scenario_2 = raise (HTTPException 400 detail)
    ∧ substring (lit "aws") detail
    ∧ ∀ p, p ∈ supported_platforms → substring p detail.
Proof.
  apply (validate_rejects_unsupported_platform ascii_lower scenario_2).
  apply list_in_false. vm_compute. reflexivity.
Defined.

(** Evaluating the checks on a concrete request. *)
Ltac run_platform_check := apply list_in_spec; vm_compute; reflexivity.
Ltac run_model_check := apply model_check_true; vm_compute; reflexivity.

(** C5, as stated, fails: for a prompt that is a single tab the platform
    and the model are valid and the prompt is blank, and the request is
    rejected with status 400, but the detail is the fixed sentence, in
    which the offending value does not occur. *)
Lemma blank_prompt_detail_omits_prompt :
  platform_supported ascii_lower tab_prompt_request
  ∧ model_supported ascii_lower tab_prompt_request
  ∧ blank (prompt tab_prompt_request)
  ∧ validate_request ascii_lower tab_prompt_request
    = raise (HTTPException 400 prompt_detail)
  ∧ ¬ substring (prompt tab_prompt_request) prompt_detail.
Proof.
  split; [run_platform_check|]. split; [run_model_check|].
  split; [by apply truthy_strip|]. split; [by vm_compute|].
  by apply str_in_false.
Qed.

(** C5, amended.  With a valid platform and model, a blank or
    whitespace-only prompt is rejected with status 400 and the fixed detail
    [prompt_detail]; a prompt that is not blank passes, and validation
    returns [True]. *)
Theorem validate_prompt_check (lower : str → str) (request : LLMRequest) :
  platform_supported lower request →
  model_supported lower request →
  (blank (prompt request) →
   validate_request lower request = raise (HTTPException 400 prompt_detail))
  ∧ (¬ blank (prompt request) → validate_request lower request = mret true).
Proof.
  intros Hp Hm.
  destruct (validate_request_cases lower request)
    as [[H _] | [(_ & H & _) | [(_ & _ & Hb & E) | (_ & _ & Hb & E)]]];
    try done.
Qed.

Lemma validate_prompt_check_witness :
  validate_request ascii_lower tab_prompt_request
  = raise (HTTPException 400 prompt_detail)
  ∧ validate_request ascii_lower scenario_1 = mret true.
Proof.
  split.
  - apply (validate_prompt_check ascii_lower tab_prompt_request);
      [run_platform_check | run_model_check | by apply truthy_strip].
  - apply (validate_prompt_check ascii_lower scenario_1);
      [run_platform_check | run_model_check |].
    intros Hb%truthy_strip. vm_compute in Hb. discriminate Hb.
Defined.

(** C6.  With a valid platform, validation raises the model error exactly
    when the lowercased model contains none of the supported model names.
    A model that contains one passes the model check: validation then
    returns [True] or raises the prompt error, and for a prompt that is not
    blank it rejects exactly when the model contains none of the names. *)
Theorem validate_model_check (lower : str → str) (request : LLMRequest) :
  platform_supported lower request →
  (validate_request lower request
   = raise (HTTPException 400 (model_detail request))
   ↔ ∀ m, m ∈ supported_models → ¬ substring m (lower (model request)))
  ∧ ((∃ m, m ∈ supported_models ∧ substring m (lower (model request))) →
     validate_request lower request = mret true
     ∨ validate_request lower request
       = raise (HTTPException 400 prompt_detail))
  ∧ (¬ blank (prompt request) →
     ((∃ e, validate_request lower request = raise e)
      ↔ ∀ m, m ∈ supported_models → ¬ substring m (lower (model request)))).
Proof.
  intros Hp.
  assert ((∀ m, m ∈ supported_models → ¬ substring m (lower (model request)))
          ↔ ¬ model_supported lower request) as Hnone.
  { unfold model_supported. split.
    - intros H (m & Hm & Hs). by apply (H m).
    - intros H m Hm Hs. apply H. by exists m. }
  rewrite Hnone.
  pose proof (model_detail_ne_prompt_detail request) as Hne.
  destruct (validate_request_cases lower request)
    as [[H _] | [(_ & Hm & E) | [(_ & Hm & Hb & E) | (_ & Hm & Hb & E)]]];
    [done | | |]; rewrite E.
  - (* the model error is raised *)
    split; [done | split].
    + intros Hex. by destruct Hm.
    + intros _. split; [done | by eexists].
  - (* the prompt error is raised *)
    split; [split | split].
    + intros [= H]; try (symmetry in H; by destruct Hne).
    + done.
    + by right.
    + done.
  - (* validation succeeds *)
    split; [split | split].
    + discriminate.
    + done.
    + by left.
    + intros _. split; [by intros [e ?] | done].
Qed.

Lemma validate_model_check_witness :
  validate_request ascii_lower unknown_model_request
  = raise (HTTPException 400 (model_detail unknown_model_request))
  ∧ (validate_request ascii_lower mixed_case_request = mret true
     ∨ validate_request ascii_lower mixed_case_request
       = raise (HTTPException 400 prompt_detail)).
Proof.
  split.
  - apply (validate_model_check ascii_lower unknown_model_request);
      [run_platform_check|].
    intros m Hm. apply str_in_false. revert m Hm.
    apply any_false. vm_compute. reflexivity.
  - apply (validate_model_check ascii_lower mixed_case_request);
      [run_platform_check|].
    exists (lit "gpt"). split; [by apply list_in_spec | by apply str_in_spec].
Defined.

(** ** Service A: the artifact section of the response *)

(** One line of the artifact summary, as the loop of [process_artifacts]
    appends it for the artifact at (zero-based) position [i]. *)
Lemma process_artifacts_loop (artifacts : list str) (header : str) :
  fold_left
    (fun artifact_summary '(i, artifact) =>
       artifact_summary ++ nl ++ lit "- Artefato " ++ str_of_int (i + 1) ++
       lit ": " ++ take 100 artifact ++ lit "...")
    (enumerate (take 3 artifacts)) header
  = header ++
    concat ((fun '(i, artifact) =>
               nl ++ lit "- Artefato " ++ str_of_int (i + 1) ++
               lit ": " ++ take 100 artifact ++ lit "...")
            <$> enumerate (take 3 artifacts)).
Proof. apply fold_left_append. by intros acc [i artifact]. Qed.

(** C2.  The artifact section: for no artifacts it is the fixed sentence
    that none was supplied; otherwise it is a header followed by one
    summary per artifact among the first three and by a remainder.  There
    are at most 3 summaries; the summary at position [i] shows the first
    100 characters at most of the artifact at position [i], followed by
    ["..."]; the remainder mentions [count - 3] artifacts when there are more
    than 3 and is empty otherwise. *)
Theorem process_artifacts_sections (artifacts : list str) :
  (artifacts = [] →
   process_artifacts artifacts = lit "Nenhum artefato fornecido")
  ∧ (artifacts ≠ [] →
     ∃ (summaries : list str) (rest : str),
       process_artifacts artifacts
       = lit "Processando " ++ str_of_int (len artifacts) ++
         lit " artefato(s): " ++ concat summaries ++ rest
       ∧ length summaries = (length artifacts `min` 3)%nat
       ∧ (∀ (i : nat) (line : str), summaries !! i = Some line →
            ∃ artifact shown,
              artifacts !! i = Some artifact
              ∧ shown = take 100 artifact
              ∧ (length shown ≤ 100)%nat
              ∧ line = nl ++ lit "- Artefato " ++
                       str_of_int (Z.of_nat i + 1) ++ lit ": " ++
                       shown ++ lit "...")
       ∧ rest = if decide (3 < length artifacts)%nat
                then nl ++ lit "- ... e mais " ++
                     str_of_int (len artifacts - 3) ++ lit " artefato(s)"
                else []).
Proof.
  split; [by intros -> |]. intros Hne.
  exists ((fun '(i, artifact) =>
             nl ++ lit "- Artefato " ++ str_of_int (i + 1) ++
             lit ": " ++ take 100 artifact ++ lit "...")
          <$> enumerate (take 3 artifacts)).
  eexists. split; [|split; [|split; [|reflexivity]]].
  - unfold process_artifacts. rewrite process_artifacts_loop.
    assert (truthy artifacts = true) as -> by by destruct artifacts.
    cbn [negb]. unfold len.
    destruct (decide (3 < length artifacts)%nat) as [Hlt | Hge].
    + rewrite (proj2 (Z.ltb_lt 3 (Z.of_nat (length artifacts))));
        [|lia].
      by rewrite <- !app_assoc.
    + rewrite (proj2 (Z.ltb_ge 3 (Z.of_nat (length artifacts))));
        [|lia].
      by rewrite <- !app_assoc, app_nil_r.
  - rewrite length_fmap. unfold enumerate.
    rewrite enumerate_from_length, length_take. lia.
  - intros i line. rewrite list_lookup_fmap. unfold enumerate.
    rewrite enumerate_from_lookup, lookup_take.
    destruct (decide (i < 3)%nat); [|done].
    destruct (artifacts !! i) as [artifact|]; [|done]. simpl.
    intros [= <-]. exists artifact, (take 100 artifact).
    rewrite length_take. repeat split; (done || lia).
Qed.

Lemma process_artifacts_sections_witness :
  process_artifacts [] = lit "Nenhum artefato fornecido"
  ∧ ∃ (summaries : list str) (rest : str),
      process_artifacts [lit "a"; lit "b"; lit "c"; lit "d"; lit "e"]
      = lit "Processando " ++ str_of_int 5 ++
        lit " artefato(s): " ++ concat summaries ++ rest
      ∧ length summaries = 3%nat
      ∧ rest = nl ++ lit "- ... e mais " ++ str_of_int 2 ++
               lit " artefato(s)".
Proof.
  split.
  - by apply (proj1 (process_artifacts_sections [])).
  - destruct (proj2 (process_artifacts_sections
                       [lit "a"; lit "b"; lit "c"; lit "d"; lit "e"]))
      as (summaries & rest & E & Hlen & _ & Hrest); [done|].
    exists summaries, rest. by split; [|split].
Defined.

(** ** Service A: the endpoint *)

Lemma validate_request_raises (lower : str → str) (request : LLMRequest)
    (e : Exception) :
  validate_request lower request = raise e →
  ∃ detail, e = HTTPException 400 detail.
Proof.
  destruct (validate_request_cases lower request)
    as [[_ E] | [(_ & _ & E) | [(_ & _ & _ & E) | (_ & _ & _ & E)]]];
    rewrite E; intros [= <-]; by eexists.
Qed.

Lemma try_body_validated (lower : str → str) (clk : Clock)
    (request_id : str) (request : LLMRequest) (b : bool) :
  validate_request lower request = mret b →
  try_body lower clk request_id request
  = mret {| request_id := request_id;
            status := lit "success";
            response_text := generate_response request;
            metadata :=
              <[lit "platform_used" := AStr (platform request)]>
              (<[lit "model_used" := AStr (model request)]>
              (<[lit "artifacts_count" := AInt (len (artifacts request))]>
              (<[lit "prompt_length" := AInt (len (prompt request))]>
              (<[lit "response_length" :=
                   AInt (len (generate_response request))]> ∅))));
            timestamp := end_iso clk;
            processing_time_ms := elapsed_ms clk |}.
Proof. intros E. unfold try_body. by rewrite E. Qed.

Lemma try_body_rejected (lower : str → str) (clk : Clock)
    (request_id : str) (request : LLMRequest) (e : Exception) :
  validate_request lower request = raise e →
  try_body lower clk request_id request = raise e.
Proof. intros E. unfold try_body. by rewrite E. Qed.

(** Two distinct keys of the metadata dictionary. *)
Ltac key_ne :=
  let H := fresh in intros H; vm_compute in H; discriminate H.

Ltac lookup_metadata :=
  cbn [metadata]; rewrite ?lookup_insert_ne by key_ne;
  apply lookup_insert_eq.

(** C4.  A validation error leaves [process_llm_request] as the validator
    raised it, with its status 400 and its detail, and so never as a 500.
    The [except] clauses turn every exception that is not an
    [HTTPException] into a 500 whose detail ends with the message of the
    failure; [process_llm_request] is these clauses around its [try]
    block. *)
Theorem process_error_policy
    (lower : str → str) (clk : Clock) (request : LLMRequest) :
  (∀ e, validate_request lower request = raise e →
        process_llm_request lower clk request = raise e
        ∧ ∃ detail, e = HTTPException 400 detail)
  ∧ (∀ (outcome : result LLMResponse) (str_e : str),
        outcome = raise (RequestException str_e)
        ∨ outcome = raise (OtherException str_e) →
        ∃ detail,
          except_clauses outcome = raise (HTTPException 500 detail)
          ∧ detail = lit "Erro interno do servidor: " ++ str_e
          ∧ substring str_e detail)
  ∧ process_llm_request lower clk request
    = except_clauses
        (try_body lower clk (lit "req_" ++ str_of_int (start_ms clk)) request).
Proof.
  split; [|split; [|done]].
  - intros e E. split; [|by apply (validate_request_raises lower request)].
    unfold process_llm_request.
    rewrite (try_body_rejected _ _ _ _ _ E).
    by destruct (validate_request_raises _ _ _ E) as [detail ->].
  - intros outcome str_e [-> | ->]; eexists; (split; [done|]);
      (split; [done|]); apply substring_app_l, substring_refl.
Qed.

Lemma process_error_policy_witness :
  process_llm_request ascii_lower noon scenario_2
  = raise (HTTPException 400 (platform_detail scenario_2))
  ∧ ∃ detail,
      except_clauses
        (raise (OtherException (lit "division by zero")) : result LLMResponse)
      = raise (HTTPException 500 detail)
      ∧ substring (lit "division by zero") detail.
Proof.
  destruct (process_error_policy ascii_lower noon scenario_2)
    as (Hval & Hother & _).
  split.
  - by apply Hval.
  - destruct (Hother (raise (OtherException (lit "division by zero")))
                     (lit "division by zero"))
      as (detail & E & _ & Hsub); [by right|].
    by exists detail.
Defined.

(** C7.  When validation passes, [process_llm_request] returns a response
    with status ["success"], whose [request_id] is ["req_"] followed by the
    milliseconds read from the clock at the start of the call, and whose
    metadata counts the artifacts, the characters of the prompt and the
    characters of the returned [response_text]. *)
Theorem process_success
    (lower : str → str) (clk : Clock) (request : LLMRequest) (b : bool) :
  validate_request lower request = mret b →
  ∃ response,
    process_llm_request lower clk request = mret response
    ∧ status response = lit "success"
    ∧ request_id response = lit "req_" ++ str_of_int (start_ms clk)
    ∧ metadata response !! lit "artifacts_count"
      = Some (AInt (len (artifacts request)))
    ∧ metadata response !! lit "prompt_length"
      = Some (AInt (len (prompt request)))
    ∧ metadata response !! lit "response_length"
      = Some (AInt (len (response_text response))).
Proof.
  intros E. eexists. split.
  - unfold process_llm_request. by rewrite (try_body_validated _ _ _ _ _ E).
  - repeat split; lookup_metadata.
Qed.

Lemma process_success_witness :
  ∃ response,
    process_llm_request ascii_lower noon scenario_1 = mret response
    ∧ status response = lit "success"
    ∧ request_id response = lit "req_1700000000123"
    ∧ metadata response !! lit "artifacts_count" = Some (AInt 0)
    ∧ metadata response !! lit "prompt_length" = Some (AInt 9)
    ∧ metadata response !! lit "response_length"
      = Some (AInt (len (response_text response))).
Proof.
  apply (process_success ascii_lower noon scenario_1 true).
  vm_compute. reflexivity.
Defined.

(** C9.  When validation passes, the metadata of the response holds under
    ["platform_used"] and ["model_used"] the platform and the model of the
    request themselves, not the lowercased copies that validation
    compared. *)
Theorem metadata_preserves_casing
    (lower : str → str) (clk : Clock) (request : LLMRequest) (b : bool) :
  validate_request lower request = mret b →
  ∃ response,
    process_llm_request lower clk request = mret response
    ∧ metadata response !! lit "platform_used"
      = Some (AStr (platform request))
    ∧ metadata response !! lit "model_used" = Some (AStr (model request)).
Proof.
  intros E. eexists. split.
  - unfold process_llm_request. by rewrite (try_body_validated _ _ _ _ _ E).
  - split; lookup_metadata.
Qed.

Lemma metadata_preserves_casing_witness :
  ∃ response,
    process_llm_request ascii_lower noon mixed_case_request = mret response
    ∧ metadata response !! lit "platform_used" = Some (AStr (lit "OpenAI"))
    ∧ metadata response !! lit "model_used" = Some (AStr (lit "GPT-4")).
Proof.
  apply (metadata_preserves_casing ascii_lower noon mixed_case_request true).
  vm_compute. reflexivity.
Defined.

End LLMServiceSpec.

(** ** Service B: the client of service A and the relay *)

Module TestServiceSpec.
Import PyFacts TestService.

Lemma except_Exception_returns {A} (body : result A) (fallback : A) :
  ∃ v, except_Exception body fallback = mret v.
Proof. destruct body as [e | v]; by eexists. Qed.

(** C8.  [check_health] always returns: [True] exactly when the call of
    [/health] returned a response with status 200, [False] when it raised
    or returned another status.  [GET /health] of service B then reports
    ["healthy"] and ["healthy"] in the first case, ["degraded"] and
    ["unhealthy"] in the second. *)
Theorem check_health_total (now_iso : str) (up : Upstream) :
  ∃ llm_healthy : bool,
    check_health up = mret llm_healthy
    ∧ (llm_healthy = true
       ↔ ∃ response,
           get_health up = mret response ∧ status_code response = 200)
    ∧ health_check now_iso up
      = mret {| health_status :=
                  if llm_healthy then lit "healthy" else lit "degraded";
                health_timestamp := now_iso;
                llm_service_status :=
                  if llm_healthy then lit "healthy" else lit "unhealthy" |}.
Proof.
  unfold health_check, check_health.
  destruct (get_health up) as [e | response] eqn:E; cbn.
  - exists false. repeat split; try done. by intros (? & ? & _).
  - exists (status_code response =? 200). repeat split; try done.
    + intros H%Z.eqb_eq. by exists response.
    + intros (r & [= <-] & H). by apply Z.eqb_eq.
Qed.

(** ** Service B: submitting a request *)

Lemma payload_eq (request : TestRequest) :
  {| artifacts := artifacts request; platform := platform request;
     model := model request; prompt := prompt request |} = request.
Proof. by destruct request. Qed.

(** [process_request], by what the POST did. *)
Lemma process_request_cases (up : Upstream) (request : TestRequest) :
  process_request up request
  = match post_process up request with
    | inl (RequestException str_e) =>
        raise (HTTPException 503 (unavailable_detail str_e))
    | inl e => raise e
    | inr response =>
        if status_code response =? 200 then
          match json response with
          | inl (RequestException str_e) =>
              raise (HTTPException 503 (unavailable_detail str_e))
          | outcome => outcome
          end
        else
          raise (HTTPException (status_code response)
                   (upstream_error_detail response))
    end.
Proof.
  unfold process_request. rewrite payload_eq.
  destruct (post_process up request) as [[]|response]; try done.
  unfold mbind, result_bind.
  destruct (status_code response =? 200); [|done].
  by destruct (json response) as [[]|j].
Qed.

(** C3, as stated, fails: an upstream that answers 200 with a body that is
    not JSON makes [process_request] raise (here the 503 error), so a 200
    answer does not always give a returned payload. *)
Lemma process_request_200_not_json :
  (∃ response,
     post_process html_upstream sample_request = mret response
     ∧ status_code response = 200)
  ∧ (∀ v, process_request html_upstream sample_request ≠ mret v)
  ∧ process_request html_upstream sample_request
    = raise (HTTPException 503
               (unavailable_detail
                  (lit "Expecting value: line 1 column 1 (char 0)"))).
Proof.
  assert (process_request html_upstream sample_request
          = raise (HTTPException 503
                     (unavailable_detail
                        (lit "Expecting value: line 1 column 1 (char 0)"))))
    as E by (rewrite process_request_cases; reflexivity).
  split; [by eexists|]. split; [|done]. intros v. by rewrite E.
Qed.

(** C3, amended.  [process_request] returns a payload exactly when the
    upstream answers 200 with a body that parses, and the payload is the
    parsed body.  An answer with another status raises an error with that
    status whose detail ends with the text of the answer; a
    [RequestException] of the POST raises a 503 whose detail ends with the
    description of the failure.  [test_llm_service] raises every
    [HTTPException] of [process_request] again with its status and
    detail. *)
Theorem process_request_classification
    (dict_field : JSON → result (gmap str JSON)) (clk : Clock)
    (up : Upstream) (request : TestRequest) :
  (∀ v, process_request up request = mret v
        ↔ ∃ response,
            post_process up request = mret response
            ∧ status_code response = 200
            ∧ json response = mret v)
  ∧ (∀ response,
       post_process up request = mret response →
       status_code response ≠ 200 →
       process_request up request
       = raise (HTTPException (status_code response)
                  (upstream_error_detail response))
       ∧ substring (text response) (upstream_error_detail response))
  ∧ (∀ str_e,
       post_process up request = raise (RequestException str_e) →
       process_request up request
       = raise (HTTPException 503 (unavailable_detail str_e))
       ∧ substring str_e (unavailable_detail str_e))
  ∧ (∀ code detail,
       process_request up request = raise (HTTPException code detail) →
       test_llm_service dict_field clk up request
       = raise (HTTPException code detail)).
Proof.
  split; [|split; [|split]].
  - intros v. rewrite process_request_cases. split.
    + destruct (post_process up request) as [[]|response]; try done.
      destruct (status_code response =? 200) eqn:Hs; [|done].
      apply Z.eqb_eq in Hs. intros Hv. exists response.
      split; [done|]. split; [done|].
      by destruct (json response) as [[]|j].
    + intros (response & -> & Hs & Hj). apply Z.eqb_eq in Hs.
      unfold mret at 1, result_ret. cbv iota beta. by rewrite Hs, Hj.
  - intros response E Hs. rewrite process_request_cases, E.
    apply Z.eqb_neq in Hs. unfold mret, result_ret. cbv iota beta.
    rewrite Hs. split; [done|].
    unfold upstream_error_detail. do 3 apply substring_app_l.
    apply substring_refl.
  - intros str_e E. rewrite process_request_cases, E. split; [done|].
    unfold unavailable_detail. do 5 apply substring_app_l.
    apply substring_refl.
  - intros code detail E. unfold test_llm_service, try_body. by rewrite E.
Qed.

Lemma process_request_classification_witness :
  process_request (answering 200 (lit "{}") (JObject ∅)) sample_request
  = mret (JObject ∅)
  ∧ process_request (answering 400 (lit "bad platform") JNull) sample_request
    = raise (HTTPException 400
               (upstream_error_detail
                  {| status_code := 400; text := lit "bad platform";
                     json := mret JNull |}))
  ∧ process_request unreachable_upstream sample_request
    = raise (HTTPException 503 (unavailable_detail (lit "Connection refused")))
  ∧ test_llm_service dict_field_strict
      {| start_ms := 1700000000123; end_iso := lit "2023-11-14T22:13:20";
         elapsed_ms := 2 |}
      unreachable_upstream sample_request
    = raise (HTTPException 503 (unavailable_detail (lit "Connection refused"))).
Proof.
  pose (clk := {| start_ms := 1700000000123;
                  end_iso := lit "2023-11-14T22:13:20";
                  elapsed_ms := 2 |}).
  destruct (process_request_classification dict_field_strict clk
              (answering 200 (lit "{}") (JObject ∅)) sample_request)
    as (Hok & _).
  destruct (process_request_classification dict_field_strict clk
              (answering 400 (lit "bad platform") JNull) sample_request)
    as (_ & Hrejected & _).
  destruct (process_request_classification dict_field_strict clk
              unreachable_upstream sample_request)
    as (_ & _ & Hdown & Hrelay).
  destruct (Hdown (lit "Connection refused")) as [Edown _]; [done|].
  split; [|split; [|split]].
  - apply Hok. by eexists.
  - by apply (Hrejected {| status_code := 400; text := lit "bad platform";
                           json := mret JNull |}).
  - exact Edown.
  - apply Hrelay, Edown.
Defined.

(** ** Service B: discovery *)

(** What [get_supported_models] and [get_supported_platforms] share: the
    call [call] and the key [key] looked up in its answer. *)
Lemma discovery_cases (call : result Response) (key : str) :
  except_Exception
    (response ← call;
     if status_code response =? 200 then
       j ← json response; get j key (JArray [])
     else mret (JArray []))
    (JArray [])
  = mret
      match call with
      | inr response =>
          if status_code response =? 200 then
            match json response with
            | inr (JObject m) =>
                match m !! key with Some v => v | None => JArray [] end
            | _ => JArray []
            end
          else JArray []
      | inl _ => JArray []
      end.
Proof.
  destruct call as [e | response]; [done|]. cbn.
  destruct (status_code response =? 200); [|done].
  destruct (json response) as [e | j]; [done|]. by destruct j.
Qed.

(** C10, as stated, fails: when the upstream answers 200 with a JSON
    object that stores [null] under the expected key, both calls return
    that [null], which is not a list. *)
Lemma discovery_returns_non_list :
  get_supported_models (answering 200 (lit "{}") null_lists) = mret JNull
  ∧ get_supported_platforms (answering 200 (lit "{}") null_lists) = mret JNull
  ∧ ¬ (∃ l, get_supported_models (answering 200 (lit "{}") null_lists)
            = mret (JArray l))
  ∧ ¬ (∃ l, get_supported_platforms (answering 200 (lit "{}") null_lists)
            = mret (JArray l)).
Proof.
  assert (get_supported_models (answering 200 (lit "{}") null_lists)
          = mret JNull) as Em by (vm_compute; reflexivity).
  assert (get_supported_platforms (answering 200 (lit "{}") null_lists)
          = mret JNull) as Ep by (vm_compute; reflexivity).
  rewrite Em, Ep. repeat split; try done; by intros [l ?].
Qed.

(** The outcome [outcome] of a discovery call, given what the HTTP call
    [call] did and the key [key] expected in its answer. *)
Lemma discovery_spec (call : result Response) (key : str)
    (outcome : result JSON) :
  (∃ v, outcome = mret v
        ∧ v = match call with
              | inr response =>
                  if status_code response =? 200 then
                    match json response with
                    | inr (JObject m) =>
                        match m !! key with Some v => v | None => JArray [] end
                    | _ => JArray []
                    end
                  else JArray []
              | inl _ => JArray []
              end) →
  (∃ v, outcome = mret v)
  ∧ (∀ e, call = raise e → outcome = mret (JArray []))
  ∧ (∀ response, call = mret response →
       (status_code response ≠ 200 → outcome = mret (JArray []))
       ∧ (status_code response = 200 →
          (∀ e, json response = raise e → outcome = mret (JArray []))
          ∧ (∀ j, json response = mret j →
               (∀ m, j ≠ JObject m) → outcome = mret (JArray []))
          ∧ (∀ m, json response = mret (JObject m) →
               (m !! key = None → outcome = mret (JArray []))
               ∧ (∀ v, m !! key = Some v → outcome = mret v)))).
Proof.
  intros (v & -> & ->). split; [by eexists|]. split.
  - by intros e ->.
  - intros response ->. unfold mret, result_ret. cbv iota beta. split.
    + intros H%Z.eqb_neq. by rewrite H.
    + intros H%Z.eqb_eq. rewrite H. split; [|split].
      * by intros e ->.
      * intros j -> Hj. destruct j; try done. by destruct (Hj m).
      * intros m ->. cbv iota beta.
        split; [by intros -> | by intros v ->].
Qed.

(** C10, amended.  [get_supported_models] and [get_supported_platforms]
    never raise.  They return the empty list when the call raises, when it
    answers with a status other than 200, when the body is not JSON, when
    it is JSON but not an object, and when it is an object without the
    expected key.  When the object has the key they return the value stored
    under it, as it is. *)
Theorem discovery_total (up : Upstream) :
  ((∃ v, get_supported_models up = mret v)
   ∧ (∀ e, get_models up = raise e →
        get_supported_models up = mret (JArray []))
   ∧ (∀ response, get_models up = mret response →
        (status_code response ≠ 200 →
         get_supported_models up = mret (JArray []))
        ∧ (status_code response = 200 →
           (∀ e, json response = raise e →
              get_supported_models up = mret (JArray []))
           ∧ (∀ j, json response = mret j → (∀ m, j ≠ JObject m) →
                get_supported_models up = mret (JArray []))
           ∧ (∀ m, json response = mret (JObject m) →
                (m !! lit "supported_models" = None →
                 get_supported_models up = mret (JArray []))
                ∧ (∀ v, m !! lit "supported_models" = Some v →
                     get_supported_models up = mret v)))))
  ∧ ((∃ v, get_supported_platforms up = mret v)
     ∧ (∀ e, get_platforms up = raise e →
          get_supported_platforms up = mret (JArray []))
     ∧ (∀ response, get_platforms up = mret response →
          (status_code response ≠ 200 →
           get_supported_platforms up = mret (JArray []))
          ∧ (status_code response = 200 →
             (∀ e, json response = raise e →
                get_supported_platforms up = mret (JArray []))
             ∧ (∀ j, json response = mret j → (∀ m, j ≠ JObject m) →
                  get_supported_platforms up = mret (JArray []))
             ∧ (∀ m, json response = mret (JObject m) →
                  (m !! lit "supported_platforms" = None →
                   get_supported_platforms up = mret (JArray []))
                  ∧ (∀ v, m !! lit "supported_platforms" = Some v →
                       get_supported_platforms up = mret v))))).
Proof.
  split.
  - apply (discovery_spec (get_models up) (lit "supported_models")).
    eexists. split; [apply discovery_cases | done].
  - apply (discovery_spec (get_platforms up) (lit "supported_platforms")).
    eexists. split; [apply discovery_cases | done].
Qed.

Lemma discovery_total_witness :
  get_supported_models unreachable_upstream = mret (JArray [])
  ∧ get_supported_platforms (answering 404 (lit "Not Found") JNull)
    = mret (JArray [])
  ∧ get_supported_models (answering 200 (lit "{}") (JObject ∅))
    = mret (JArray [])
  ∧ get_supported_models
      (answering 200 (lit "{}")
         (JObject {[ lit "supported_models" := JArray [JString (lit "gpt")] ]}))
    = mret (JArray [JString (lit "gpt")]).
Proof.
  split; [|split; [|split]].
  - by apply (proj1 (proj2 (proj1 (discovery_total unreachable_upstream)))
                connection_refused).
  - destruct (discovery_total (answering 404 (lit "Not Found") JNull))
      as (_ & _ & _ & H).
    by apply (H {| status_code := 404; text := lit "Not Found";
                   json := mret JNull |}).
  - destruct (discovery_total (answering 200 (lit "{}") (JObject ∅)))
      as ((_ & _ & H) & _).
    destruct (H {| status_code := 200; text := lit "{}";
                   json := mret (JObject ∅) |}) as [_ H200]; [done|].
    destruct H200 as (_ & _ & Hobj); [done|].
    destruct (Hobj ∅) as [Hnone _]; [done|]. apply Hnone, lookup_empty.
  - destruct (discovery_total
                (answering 200 (lit "{}")
                   (JObject {[ lit "supported_models" :=
                                 JArray [JString (lit "gpt")] ]})))
      as ((_ & _ & H) & _).
    destruct (H {| status_code := 200; text := lit "{}";
                   json := mret (JObject {[ lit "supported_models" :=
                                              JArray [JString (lit "gpt")] ]})
                |}) as [_ H200]; [done|].
    destruct H200 as (_ & _ & Hobj); [done|].
    destruct (Hobj {[ lit "supported_models" :=
                        JArray [JString (lit "gpt")] ]})
      as [_ Hsome]; [done|].
    apply Hsome, lookup_singleton_eq.
Defined.

End TestServiceSpec.

(** * Further properties of the two services *)

(** ** More about the built-ins *)

Module PyMoreFacts.
Import PyFacts.

Lemma blank_rev_intro (s : str) : blank s → blank (rev s).
Proof. apply Forall_rev. Qed.

Lemma lstrip_blank_app (ws s : str) : blank ws → lstrip (ws ++ s) = lstrip s.
Proof.
  unfold blank. induction 1 as [|c ws Hc _ IH]; simpl; [done|].
  by rewrite Hc.
Qed.

Lemma lstrip_nonspace (c : N) (s : str) :
  isspace c = false → lstrip (c :: s) = c :: s.
Proof. intros H. simpl. by rewrite H. Qed.

Lemma rstrip_blank_app (s ws : str) : blank ws → rstrip (s ++ ws) = rstrip s.
Proof.
  intros H. unfold rstrip.
  by rewrite rev_app_distr, lstrip_blank_app by by apply blank_rev_intro.
Qed.

Lemma rstrip_nonspace (s : str) (d : N) :
  isspace d = false → rstrip (s ++ [d]) = s ++ [d].
Proof.
  intros H. unfold rstrip. rewrite rev_app_distr. simpl.
  rewrite H. simpl. by rewrite rev_involutive.
Qed.

(** *** Decimal rendering *)

Lemma lit_inj (a b : string) : lit a = lit b → a = b.
Proof.
  revert b. induction a as [|x a IH]; intros [|y b]; try done.
  unfold lit. simpl. intros [= Hxy Hab].
  f_equal; [|by apply IH].
  by rewrite <- (ascii_N_embedding x), <- (ascii_N_embedding y), Hxy.
Qed.

Lemma to_int_string_inj (n m : Z) :
  NilZero.string_of_int (Z.to_int n) = NilZero.string_of_int (Z.to_int m) →
  n = m.
Proof.
  intros H. apply DecimalZ.to_int_inj.
  assert (∀ z, NilZero.int_of_string (NilZero.string_of_int (Z.to_int z))
               = Some (Z.to_int z)) as Hisi.
  { intros z. apply NilZero.isi; destruct z as [|p|p]; try done;
      intros [= Hp]; by apply DecimalPos.Unsigned.to_uint_nonnil in Hp. }
  pose proof (Hisi n) as Hn. rewrite H, Hisi in Hn. by injection Hn.
Qed.

Lemma str_of_int_inj (n m : Z) : str_of_int n = str_of_int m → n = m.
Proof. intros H. by apply to_int_string_inj, lit_inj. Qed.

(** *** [rstrip] with a set of characters *)

Lemma lstrip_chars_head (chars s : str) :
  lstrip_chars chars s = []
  ∨ ∃ c t, lstrip_chars chars s = c :: t ∧ char_in c chars = false.
Proof.
  induction s as [|c s IH]; simpl; [by left|].
  destruct (char_in c chars) eqn:Hc; [done|]. right. eauto.
Qed.

Lemma lstrip_chars_split (chars s : str) :
  ∃ pre, s = pre ++ lstrip_chars chars s
         ∧ Forall (fun c => char_in c chars = true) pre.
Proof.
  induction s as [|c s (pre & E & Hpre)]; simpl; [by exists []|].
  destruct (char_in c chars) eqn:Hc.
  - exists (c :: pre). split; [by rewrite E at 1 | by constructor].
  - by exists [].
Qed.

Lemma lstrip_chars_idem (chars s : str) :
  lstrip_chars chars (lstrip_chars chars s) = lstrip_chars chars s.
Proof.
  destruct (lstrip_chars_head chars s) as [-> | (c & t & -> & Hc)]; [done|].
  simpl. by rewrite Hc.
Qed.

End PyMoreFacts.

(** ** Service A: more about validation and the response text *)

Module LLMServiceMore.
Import PyFacts PyMoreFacts LLMService LLMServiceSpec.

(** [strip()] takes from the template its own first line break and its own
    last line break and indentation, and nothing of the request. *)
Lemma generate_response_text (request : LLMRequest) :
  generate_response request
  = lit "Resposta gerada pela LLM " ++ model request ++
    lit " na plataforma " ++ platform request ++ lit ":" ++ nl ++
    nl ++
    lit "Contexto dos Artefatos:" ++ nl ++
    process_artifacts (artifacts request) ++ nl ++
    nl ++
    lit "Prompt Original: " ++ dq ++ prompt request ++ dq ++ nl ++
    nl ++
    lit "Resposta Simulada:" ++ nl ++
    lit "Com base nos artefatos fornecidos e no prompt " ++ dq ++
    prompt request ++ dq ++ lit ", " ++ nl ++
    lit "a an" ++ [a_acute] ++
    lit "lise indica que o sistema deve considerar os seguintes aspectos:" ++ nl ++
    nl ++
    lit "1. An" ++ [a_acute] ++ lit "lise dos artefatos fornecidos" ++ nl ++
    lit "2. Aplica" ++ [c_cedilla; a_tilde] ++ lit "o do modelo " ++
    model request ++ lit " para processamento" ++ nl ++
    lit "3. Gera" ++ [c_cedilla; a_tilde] ++
    lit "o de resposta contextualizada" ++ nl ++
    nl ++
    lit "Esta " ++ [e_acute] ++ lit " uma resposta simulada. Em produ" ++
    [c_cedilla; a_tilde] ++ lit "o, seria gerada pelo modelo real " ++
    model request ++ lit ".".
Proof.
  unfold generate_response, strip. cbv zeta.
  rewrite (lstrip_blank_app nl) by by apply lstrip_nil.
  change (lit "Resposta gerada pela LLM ")
    with (82%N :: lit "esposta gerada pela LLM ").
  rewrite <- app_comm_cons, lstrip_nonspace by done.
  rewrite app_comm_cons.
  change (82%N :: lit "esposta gerada pela LLM ")
    with (lit "Resposta gerada pela LLM ").
  rewrite !app_assoc.
  rewrite (rstrip_blank_app _ (lit "        ")) by by apply lstrip_nil.
  rewrite (rstrip_blank_app _ nl) by by apply lstrip_nil.
  change (lit ".") with [46%N]. by rewrite rstrip_nonspace.
Qed.

(** X1.  [validate_request] returns exactly when the three checks pass
    together, and then it returns [True]. *)
Theorem validate_request_accepts_iff
    (lower : str → str) (request : LLMRequest) :
  (validate_request lower request = mret true
   ↔ platform_supported lower request
     ∧ model_supported lower request
     ∧ ¬ blank (prompt request))
  ∧ (∀ b, validate_request lower request = mret b → b = true).
Proof.
  destruct (validate_request_cases lower request)
    as [[H E] | [(Hp & H & E) | [(Hp & Hm & H & E) | (Hp & Hm & H & E)]]];
    rewrite E; split; try done; try (by intros b [= <-]);
    split; try done; by intros (? & ? & ?).
Qed.

(** X2.  The response text begins with the line that names the model and
    the platform and ends with the model and a full stop, all as submitted;
    it holds the artifact section and, between double quotes, the prompt as
    submitted. *)
Theorem generate_response_echoes_request (request : LLMRequest) :
  (∃ rest,
     generate_response request
     = lit "Resposta gerada pela LLM " ++ model request ++
       lit " na plataforma " ++ platform request ++ lit ":" ++ nl ++ rest)
  ∧ (∃ pre,
       generate_response request
       = pre ++ lit "o, seria gerada pelo modelo real " ++
         model request ++ lit ".")
  ∧ substring
      (lit "Contexto dos Artefatos:" ++ nl ++
       process_artifacts (artifacts request) ++ nl)
      (generate_response request)
  ∧ substring
      (lit "Prompt Original: " ++ dq ++ prompt request ++ dq ++ nl)
      (generate_response request)
  ∧ substring
      (lit "no prompt " ++ dq ++ prompt request ++ dq ++ lit ", ")
      (generate_response request).
Proof.
  rewrite generate_response_text. split; [by eexists|].
  split; [|split; [|split]].
  - eexists. rewrite !app_assoc. by do 3 f_equal.
  - do 7 apply substring_app_l. eexists [], _. by rewrite <- !app_assoc.
  - do 12 apply substring_app_l. eexists [], _. by rewrite <- !app_assoc.
  - do 20 apply substring_app_l.
    change (lit "Com base nos artefatos fornecidos e no prompt ")
      with (lit "Com base nos artefatos fornecidos e " ++ lit "no prompt ").
    rewrite <- app_assoc. apply substring_app_l.
    eexists [], _. by rewrite <- !app_assoc.
Qed.

(** X3.  The length of the response text: 424 characters of template, the
    model three times, the platform once, the prompt twice and the artifact
    section once. *)
Theorem generate_response_length (request : LLMRequest) :
  len (generate_response request)
  = 424 + 3 * len (model request) + len (platform request)
    + 2 * len (prompt request) + len (process_artifacts (artifacts request)).
Proof.
  rewrite generate_response_text. unfold len. rewrite !length_app.
  repeat match goal with
         | |- context [length (lit ?s)] =>
             let n := eval vm_compute in (length (lit s)) in
             change (length (lit s)) with n
         end.
  unfold nl, dq. cbn [length]. lia.
Qed.

Lemma summaries_local (k : Z) (l1 l2 : list str) :
  take 100 <$> l1 = take 100 <$> l2 →
  ((fun '(i, artifact) =>
      nl ++ lit "- Artefato " ++ str_of_int (i + 1) ++
      lit ": " ++ take 100 artifact ++ lit "...")
   <$> enumerate_from k l1)
  = ((fun '(i, artifact) =>
        nl ++ lit "- Artefato " ++ str_of_int (i + 1) ++
        lit ": " ++ take 100 artifact ++ lit "...")
     <$> enumerate_from k l2).
Proof.
  revert k l2. induction l1 as [|a l1 IH]; intros k [|b l2]; try done.
  intros [= Hab Hl]. cbn [enumerate_from fmap list_fmap].
  by rewrite Hab, (IH (k + 1) l2 Hl).
Qed.

(** X4.  The artifact section depends only on the number of artifacts and
    on the first 100 characters of each of the first three: nothing else of
    the artifacts reaches the response. *)
Theorem process_artifacts_local (l1 l2 : list str) :
  length l1 = length l2 →
  take 100 <$> take 3 l1 = take 100 <$> take 3 l2 →
  process_artifacts l1 = process_artifacts l2.
Proof.
  intros Hlen Htake. unfold process_artifacts.
  rewrite !process_artifacts_loop. unfold enumerate, len.
  rewrite (summaries_local 0 _ _ Htake), Hlen.
  assert (truthy l1 = truthy l2) as ->; [|done].
  by destruct l1, l2.
Qed.

Lemma process_artifacts_local_witness :
  process_artifacts
    [lit "a"; lit "b"; lit "c"; lit "secret"; lit "x"]
  = process_artifacts [lit "a"; lit "b"; lit "c"; lit "other"; lit "y"]
  ∧ process_artifacts [repeat 97%N 100 ++ lit "secret"]
    = process_artifacts [repeat 97%N 100 ++ lit "other"].
Proof.
  split; by apply process_artifacts_local.
Defined.

Lemma process_llm_request_returns
    (lower : str → str) (clk : Clock) (request : LLMRequest)
    (response : LLMResponse) :
  process_llm_request lower clk request = mret response →
  response
  = {| request_id := lit "req_" ++ str_of_int (start_ms clk);
       status := lit "success";
       response_text := generate_response request;
       metadata :=
         <[lit "platform_used" := AStr (platform request)]>
         (<[lit "model_used" := AStr (model request)]>
         (<[lit "artifacts_count" := AInt (len (artifacts request))]>
         (<[lit "prompt_length" := AInt (len (prompt request))]>
         (<[lit "response_length" :=
              AInt (len (generate_response request))]> ∅))));
       timestamp := end_iso clk;
       processing_time_ms := elapsed_ms clk |}.
Proof.
  unfold process_llm_request.
  destruct (validate_request lower request) as [e | b] eqn:E.
  - rewrite (try_body_rejected _ _ _ _ _ E). by destruct e.
  - rewrite (try_body_validated _ _ _ _ _ E). by intros [= <-].
Qed.

(** X5.  Two successful calls get the same [request_id] exactly when their
    clocks read the same millisecond at the start; for the same request
    they return the same response text and the same metadata whatever the
    clocks read. *)
Theorem request_id_by_millisecond
    (lower : str → str) (clk1 clk2 : Clock) (request1 request2 : LLMRequest)
    (response1 response2 : LLMResponse) :
  process_llm_request lower clk1 request1 = mret response1 →
  process_llm_request lower clk2 request2 = mret response2 →
  (request_id response1 = request_id response2
   ↔ start_ms clk1 = start_ms clk2)
  ∧ (request1 = request2 →
     response_text response1 = response_text response2
     ∧ metadata response1 = metadata response2).
Proof.
  intros ->%process_llm_request_returns ->%process_llm_request_returns.
  cbn [request_id response_text metadata]. split.
  - split; [|by intros ->]. by intros ?%app_inv_head%str_of_int_inj.
  - by intros ->.
Qed.

Lemma request_id_by_millisecond_witness :
  ∃ response1 response2,
    process_llm_request ascii_lower noon scenario_1 = mret response1
    ∧ process_llm_request ascii_lower noon mixed_case_request = mret response2
    ∧ request_id response1 = request_id response2.
Proof.
  eexists _, _. split; [reflexivity|]. split; [reflexivity|].
  by apply (request_id_by_millisecond ascii_lower noon noon
              scenario_1 mixed_case_request).
Defined.

(** X6.  The metadata of a response has the five keys of the source and
    no other. *)
Theorem metadata_keys
    (lower : str → str) (clk : Clock) (request : LLMRequest)
    (response : LLMResponse) :
  process_llm_request lower clk request = mret response →
  dom (metadata response)
  = {[ lit "platform_used"; lit "model_used"; lit "artifacts_count";
       lit "prompt_length"; lit "response_length" ]}.
Proof.
  intros ->%process_llm_request_returns. cbn [metadata].
  rewrite !dom_insert_L, dom_empty_L. set_solver.
Qed.

Lemma metadata_keys_witness :
  ∃ response,
    process_llm_request ascii_lower noon scenario_1 = mret response
    ∧ dom (metadata response)
      = {[ lit "platform_used"; lit "model_used"; lit "artifacts_count";
           lit "prompt_length"; lit "response_length" ]}.
Proof.
  eexists. split; [reflexivity|].
  by apply (metadata_keys ascii_lower noon scenario_1).
Defined.

End LLMServiceMore.

(** ** Service B: more about the client, the routes and the relay *)

Module TestServiceMore.
Import PyFacts PyMoreFacts TestService TestServiceSpec.

Lemma slash_run (l : str) :
  Forall (fun c => char_in c (lit "/") = true) l →
  l = repeat 47%N (length l).
Proof.
  induction 1 as [|c l Hc _ IH]; [done|]. simpl. rewrite <- IH.
  f_equal. unfold char_in in Hc. simpl in Hc.
  rewrite orb_false_r in Hc. by apply N.eqb_eq in Hc.
Qed.

(** X7.  The client keeps the configured base URL without its trailing
    slashes: what it cuts off is a run of slashes, what it keeps does not
    end with a slash, one more trailing slash in the configuration changes
    nothing, and cutting twice is cutting once. *)
Theorem base_url_without_trailing_slashes (url : str) :
  (∃ n, url = base_url (LLMClient_init url) ++ repeat 47%N n)
  ∧ (∀ t, base_url (LLMClient_init url) ≠ t ++ lit "/")
  ∧ LLMClient_init (url ++ lit "/") = LLMClient_init url
  ∧ LLMClient_init (base_url (LLMClient_init url)) = LLMClient_init url
  ∧ process_url (LLMClient_init (url ++ lit "/"))
    = process_url (LLMClient_init url).
Proof.
  assert (LLMClient_init (url ++ lit "/") = LLMClient_init url) as Hslash.
  { unfold LLMClient_init, rstrip_chars. by rewrite rev_app_distr. }
  unfold LLMClient_init, rstrip_chars in *. cbn [base_url].
  split; [|split; [|split; [done|split]]].
  - destruct (lstrip_chars_split (lit "/") (rev url)) as (pre & E & Hpre).
    exists (length (rev pre)). rewrite <- slash_run by by apply Forall_rev.
    rewrite <- rev_app_distr, <- E. by rewrite rev_involutive.
  - intros t E. apply (f_equal (@rev N)) in E.
    rewrite rev_involutive, rev_app_distr in E. simpl in E.
    destruct (lstrip_chars_head (lit "/") (rev url))
      as [E' | (c & t' & E' & Hc)]; rewrite E' in E; [done|].
    injection E as -> _. done.
  - by rewrite rev_involutive, lstrip_chars_idem.
  - unfold process_url. by rewrite Hslash.
Qed.

(** The client methods, by what the call did. *)
Lemma get_supported_models_cases (up : Upstream) :
  get_supported_models up
  = mret
      match get_models up with
      | inr response =>
          if status_code response =? 200 then
            match json response with
            | inr (JObject m) =>
                match m !! lit "supported_models" with
                | Some v => v
                | None => JArray []
                end
            | _ => JArray []
            end
          else JArray []
      | inl _ => JArray []
      end.
Proof. apply discovery_cases. Qed.

Lemma get_supported_platforms_cases (up : Upstream) :
  get_supported_platforms up
  = mret
      match get_platforms up with
      | inr response =>
          if status_code response =? 200 then
            match json response with
            | inr (JObject m) =>
                match m !! lit "supported_platforms" with
                | Some v => v
                | None => JArray []
                end
            | _ => JArray []
            end
          else JArray []
      | inl _ => JArray []
      end.
Proof. apply discovery_cases. Qed.

Lemma py_len_raises (v : JSON) :
  (∀ l, v ≠ JArray l) → (∀ s, v ≠ JString s) → (∀ m, v ≠ JObject m) →
  ∃ msg, py_len v = raise (OtherException msg).
Proof.
  intros Hl Hs Hm. destruct v; try (by eexists).
  - by destruct (Hs s).
  - by destruct (Hl l).
  - by destruct (Hm m).
Qed.

(** X8.  [GET /models] and [GET /platforms] of service B.  When the client
    method yields a list, the route answers with that list, its length as
    [count] and the source tag.  When the upstream raises, the route answers
    with the empty list and count 0.  When the upstream answers 200 with an
    object that stores under the key a value without length ([null], a
    boolean, a number), the route raises, although the client method does
    not. *)
Theorem discovery_routes (up : Upstream) :
  ((∀ l, get_supported_models up = mret (JArray l) →
         get_supported_models_route up
         = mret (<[lit "supported_models" := JArray l]>
                 (<[lit "count" := JInt (len l)]>
                 (<[lit "source" := JString (lit "llm_service")]> ∅))))
   ∧ (∀ e, get_models up = raise e →
           get_supported_models_route up
           = mret (<[lit "supported_models" := JArray []]>
                   (<[lit "count" := JInt 0]>
                   (<[lit "source" := JString (lit "llm_service")]> ∅))))
   ∧ (∀ response m v,
        get_models up = mret response →
        status_code response = 200 →
        json response = mret (JObject m) →
        m !! lit "supported_models" = Some v →
        (∀ l, v ≠ JArray l) → (∀ s, v ≠ JString s) → (∀ m', v ≠ JObject m') →
        get_supported_models up = mret v
        ∧ ∃ msg, get_supported_models_route up = raise (OtherException msg)))
  ∧ ((∀ l, get_supported_platforms up = mret (JArray l) →
           get_supported_platforms_route up
           = mret (<[lit "supported_platforms" := JArray l]>
                   (<[lit "count" := JInt (len l)]>
                   (<[lit "source" := JString (lit "llm_service")]> ∅))))
     ∧ (∀ e, get_platforms up = raise e →
             get_supported_platforms_route up
             = mret (<[lit "supported_platforms" := JArray []]>
                     (<[lit "count" := JInt 0]>
                     (<[lit "source" := JString (lit "llm_service")]> ∅))))
     ∧ (∀ response m v,
          get_platforms up = mret response →
          status_code response = 200 →
          json response = mret (JObject m) →
          m !! lit "supported_platforms" = Some v →
          (∀ l, v ≠ JArray l) → (∀ s, v ≠ JString s) →
          (∀ m', v ≠ JObject m') →
          get_supported_platforms up = mret v
          ∧ ∃ msg,
              get_supported_platforms_route up = raise (OtherException msg))).
Proof.
  split.
  - unfold get_supported_models_route. split; [|split].
    + by intros l ->.
    + intros e E. by rewrite get_supported_models_cases, E.
    + intros response m v E Hs%Z.eqb_eq Hj Hv Hl Hstr Hm.
      assert (get_supported_models up = mret v) as Ev.
      { rewrite get_supported_models_cases, E.
        unfold mret, result_ret. cbv iota beta. rewrite Hs, Hj.
        unfold mret, result_ret. cbv iota beta. by rewrite Hv. }
      split; [done|]. rewrite Ev.
      destruct (py_len_raises v Hl Hstr Hm) as [msg Hmsg].
      exists msg. unfold mret, result_ret, mbind, result_bind.
      by rewrite Hmsg.
  - unfold get_supported_platforms_route. split; [|split].
    + by intros l ->.
    + intros e E. by rewrite get_supported_platforms_cases, E.
    + intros response m v E Hs%Z.eqb_eq Hj Hv Hl Hstr Hm.
      assert (get_supported_platforms up = mret v) as Ev.
      { rewrite get_supported_platforms_cases, E.
        unfold mret, result_ret. cbv iota beta. rewrite Hs, Hj.
        unfold mret, result_ret. cbv iota beta. by rewrite Hv. }
      split; [done|]. rewrite Ev.
      destruct (py_len_raises v Hl Hstr Hm) as [msg Hmsg].
      exists msg. unfold mret, result_ret, mbind, result_bind.
      by rewrite Hmsg.
Qed.

Lemma discovery_routes_witness :
  get_supported_models_route unreachable_upstream
  = mret (<[lit "supported_models" := JArray []]>
          (<[lit "count" := JInt 0]>
          (<[lit "source" := JString (lit "llm_service")]> ∅)))
  ∧ (get_supported_models (answering 200 (lit "{}") null_lists) = mret JNull
     ∧ ∃ msg,
         get_supported_models_route (answering 200 (lit "{}") null_lists)
         = raise (OtherException msg)).
Proof.
  split.
  - destruct (discovery_routes unreachable_upstream) as ((_ & H & _) & _).
    by apply (H connection_refused).
  - destruct (discovery_routes (answering 200 (lit "{}") null_lists))
      as ((_ & _ & H) & _).
    apply (H {| status_code := 200; text := lit "{}";
                json := mret null_lists |}
             (<[lit "supported_models" := JNull]>
              (<[lit "supported_platforms" := JNull]> ∅)) JNull);
      done.
Defined.

(** [test_llm_service], by what [process_request] and pydantic did. *)
Lemma test_llm_service_cases
    (dict_field : JSON → result (gmap str JSON)) (clk : Clock)
    (up : Upstream) (request : TestRequest) :
  test_llm_service dict_field clk up request
  = except_clauses
      match process_request up request with
      | inl e => inl e
      | inr v =>
          match dict_field v with
          | inl e => inl e
          | inr m =>
              mret {| test_id := lit "test_" ++ str_of_int (start_ms clk);
                      llm_request := request;
                      llm_response := m;
                      status := lit "success";
                      timestamp := end_iso clk;
                      test_duration_ms := elapsed_ms clk |}
          end
      end.
Proof.
  unfold test_llm_service, try_body.
  destruct (process_request up request) as [e | v]; [done|].
  unfold mbind, result_bind. by destruct (dict_field v).
Qed.

Lemma except_clauses_outcome {A} (outcome : result A) :
  (∃ v, except_clauses outcome = mret v)
  ∨ (∃ code detail, except_clauses outcome = raise (HTTPException code detail)).
Proof.
  destruct outcome as [[] | v];
    [right; by eexists _, _ .. | left; by eexists].
Qed.

(** X9.  [POST /test] either returns or raises an [HTTPException]; no other
    exception leaves it.  A failure that is not an [HTTPException] (the POST
    or the decoding of a 200 answer raising something other than a
    [RequestException], pydantic rejecting the decoded answer) becomes a 500
    whose detail is ["Erro interno do servidor: "] followed by the message
    of the failure. *)
Theorem relay_error_boundary
    (dict_field : JSON → result (gmap str JSON)) (clk : Clock)
    (up : Upstream) (request : TestRequest) :
  ((∃ r, test_llm_service dict_field clk up request = mret r)
   ∨ (∃ code detail,
        test_llm_service dict_field clk up request
        = raise (HTTPException code detail)))
  ∧ (∀ msg,
       post_process up request = raise (OtherException msg) →
       test_llm_service dict_field clk up request
       = raise (HTTPException 500 (lit "Erro interno do servidor: " ++ msg)))
  ∧ (∀ response msg,
       post_process up request = mret response →
       status_code response = 200 →
       json response = raise (OtherException msg) →
       test_llm_service dict_field clk up request
       = raise (HTTPException 500 (lit "Erro interno do servidor: " ++ msg)))
  ∧ (∀ response v msg,
       post_process up request = mret response →
       status_code response = 200 →
       json response = mret v →
       dict_field v = raise (OtherException msg)
       ∨ dict_field v = raise (RequestException msg) →
       test_llm_service dict_field clk up request
       = raise (HTTPException 500 (lit "Erro interno do servidor: " ++ msg))).
Proof.
  rewrite test_llm_service_cases. split; [apply except_clauses_outcome|].
  rewrite process_request_cases. split; [|split].
  - by intros msg ->.
  - intros response msg -> Hs%Z.eqb_eq Hj.
    unfold mret, result_ret. cbv iota beta. by rewrite Hs, Hj.
  - intros response v msg -> Hs%Z.eqb_eq Hj Hd.
    unfold mret, result_ret. cbv iota beta. rewrite Hs, Hj.
    unfold mret, result_ret. cbv iota beta. by destruct Hd as [-> | ->].
Qed.

Lemma relay_error_boundary_witness :
  test_llm_service dict_field_strict
    {| start_ms := 1700000000123; end_iso := lit "2023-11-14T22:13:20";
       elapsed_ms := 2 |}
    (answering_html (OtherException (lit "Expecting value")))
    sample_request
  = raise (HTTPException 500
             (lit "Erro interno do servidor: " ++ lit "Expecting value"))
  ∧ test_llm_service dict_field_strict
      {| start_ms := 1700000000123; end_iso := lit "2023-11-14T22:13:20";
         elapsed_ms := 2 |}
      (answering 200 (lit "[]") (JArray []))
      sample_request
    = raise (HTTPException 500
               (lit "Erro interno do servidor: " ++
                lit "Input should be a valid dictionary")).
Proof.
  split.
  - destruct (relay_error_boundary dict_field_strict
                {| start_ms := 1700000000123;
                   end_iso := lit "2023-11-14T22:13:20"; elapsed_ms := 2 |}
                (answering_html (OtherException (lit "Expecting value")))
                sample_request) as (_ & _ & H & _).
    by apply (H {| status_code := 200; text := lit "<html></html>";
                   json := raise (OtherException (lit "Expecting value")) |}).
  - destruct (relay_error_boundary dict_field_strict
                {| start_ms := 1700000000123;
                   end_iso := lit "2023-11-14T22:13:20"; elapsed_ms := 2 |}
                (answering 200 (lit "[]") (JArray []))
                sample_request) as (_ & _ & _ & H).
    apply (H {| status_code := 200; text := lit "[]";
                json := mret (JArray []) |} (JArray [])); try done.
    by left.
Defined.

(** X10.  When the upstream answers 200 with a body that decodes to a
    value pydantic accepts as dictionary [m], [POST /test] returns a
    response that echoes the request, carries [m], has status ["success"]
    and the [test_id] ["test_"] followed by the milliseconds of the clock. *)
Theorem relay_success
    (dict_field : JSON → result (gmap str JSON)) (clk : Clock)
    (up : Upstream) (request : TestRequest)
    (response : Response) (v : JSON) (m : gmap str JSON) :
  post_process up request = mret response →
  status_code response = 200 →
  json response = mret v →
  dict_field v = mret m →
  test_llm_service dict_field clk up request
  = mret {| test_id := lit "test_" ++ str_of_int (start_ms clk);
            llm_request := request;
            llm_response := m;
            status := lit "success";
            timestamp := end_iso clk;
            test_duration_ms := elapsed_ms clk |}.
Proof.
  intros E Hs%Z.eqb_eq Hj Hd.
  rewrite test_llm_service_cases, process_request_cases, E.
  unfold mret, result_ret. cbv iota beta. rewrite Hs, Hj.
  unfold mret, result_ret. cbv iota beta. by rewrite Hd.
Qed.

Lemma relay_success_witness :
  ∃ r,
    test_llm_service dict_field_strict
      {| start_ms := 1700000000123; end_iso := lit "2023-11-14T22:13:20";
         elapsed_ms := 2 |}
      (answering 200 (lit "{}") (JObject ∅)) sample_request
    = mret r
    ∧ llm_request r = sample_request
    ∧ test_id r = lit "test_1700000000123".
Proof.
  eexists. split; [|split].
  - by apply (relay_success dict_field_strict _
                (answering 200 (lit "{}") (JObject ∅)) sample_request
                {| status_code := 200; text := lit "{}";
                   json := mret (JObject ∅) |} (JObject ∅) ∅).
  - done.
  - done.
Defined.

(** X11.  Service B in front of service A: when the upstream answers
    [GET /models] and [GET /platforms] with status 200 and the documents
    that the routes of service A return, the routes of service B answer
    with the lists of service A and with the counts that service A itself
    reports, 5 models and 4 platforms. *)
Theorem discovery_routes_mirror_service_A
    (up : Upstream) (models_response platforms_response : Response) :
  get_models up = mret models_response →
  status_code models_response = 200 →
  json models_response = mret (JObject LLMServiceRoutes.get_supported_models) →
  get_platforms up = mret platforms_response →
  status_code platforms_response = 200 →
  json platforms_response
  = mret (JObject LLMServiceRoutes.get_supported_platforms) →
  get_supported_models_route up
  = mret (<[lit "supported_models" :=
              JArray (JString <$> LLMService.supported_models)]>
          (<[lit "count" := JInt 5]>
          (<[lit "source" := JString (lit "llm_service")]> ∅)))
  ∧ get_supported_platforms_route up
    = mret (<[lit "supported_platforms" :=
                JArray (JString <$> LLMService.supported_platforms)]>
            (<[lit "count" := JInt 4]>
            (<[lit "source" := JString (lit "llm_service")]> ∅)))
  ∧ LLMServiceRoutes.get_supported_models !! lit "count" = Some (JInt 5)
  ∧ LLMServiceRoutes.get_supported_platforms !! lit "count" = Some (JInt 4).
Proof.
  intros Em Hm%Z.eqb_eq Jm Ep Hp%Z.eqb_eq Jp.
  assert (LLMServiceRoutes.get_supported_models !! lit "supported_models"
          = Some (JArray (JString <$> LLMService.supported_models))) as Lm
    by apply lookup_insert_eq.
  assert (LLMServiceRoutes.get_supported_platforms
            !! lit "supported_platforms"
          = Some (JArray (JString <$> LLMService.supported_platforms))) as Lp
    by apply lookup_insert_eq.
  split; [|split; [|split]].
  - unfold get_supported_models_route.
    rewrite get_supported_models_cases, Em.
    unfold mret, result_ret. cbv iota beta. rewrite Hm, Jm.
    unfold mret, result_ret. cbv iota beta. by rewrite Lm.
  - unfold get_supported_platforms_route.
    rewrite get_supported_platforms_cases, Ep.
    unfold mret, result_ret. cbv iota beta. rewrite Hp, Jp.
    unfold mret, result_ret. cbv iota beta. by rewrite Lp.
  - unfold LLMServiceRoutes.get_supported_models.
    rewrite lookup_insert_ne by (intros H; vm_compute in H; discriminate H).
    apply lookup_insert_eq.
  - unfold LLMServiceRoutes.get_supported_platforms.
    rewrite lookup_insert_ne by (intros H; vm_compute in H; discriminate H).
    apply lookup_insert_eq.
Qed.

Lemma discovery_routes_mirror_service_A_witness :
  ∃ l,
    get_supported_models_route
      (answering 200 (lit "{}") (JObject LLMServiceRoutes.get_supported_models))
    = mret (<[lit "supported_models" := JArray l]>
            (<[lit "count" := JInt 5]>
            (<[lit "source" := JString (lit "llm_service")]> ∅))).
Proof.
  eexists.
  pose (up := {| get_health := raise connection_refused;
                 get_models :=
                   mret {| status_code := 200; text := lit "{}";
                           json := mret (JObject
                                     LLMServiceRoutes.get_supported_models) |};
                 get_platforms :=
                   mret {| status_code := 200; text := lit "{}";
                           json := mret (JObject
                                     LLMServiceRoutes.get_supported_platforms) |};
                 post_process := fun _ => raise connection_refused |}).
  change (get_supported_models_route
            (answering 200 (lit "{}")
               (JObject LLMServiceRoutes.get_supported_models)))
    with (get_supported_models_route up).
  by apply (discovery_routes_mirror_service_A up
              {| status_code := 200; text := lit "{}";
                 json := mret (JObject LLMServiceRoutes.get_supported_models) |}
              {| status_code := 200; text := lit "{}";
                 json := mret (JObject
                           LLMServiceRoutes.get_supported_platforms) |}).
Defined.

End TestServiceMore.
